(** * Model registry (chapter2_training/model_db): the data-access core

    A shallow embedding of [src/db/models.py], [src/db/cruds.py] and
    [src/db/database.py], and the properties of the specification proved
    (or refuted) on it.

    How the storage library is modelled.  The functions of [cruds.py] talk
    to an ORM session; what they rely on is written out here:

    - a query reads the rows the session has written to the database;
    - [db.add] registers a new instance with the session.  Sessions are
      made by [sessionmaker(autocommit=False, autoflush=False, ...)]
      ([database.py]), so a registered instance is written only by the
      next [db.commit], and queries issued before that do not see it;
    - assigning to a mapped attribute ([data.evaluations = ...]) is
      recorded by the session and written back by the next [db.commit];
      the JSON columns are declared with the plain [JSON] type
      ([models.py]), for which item assignment into the loaded dict
      ([data.evaluations[k] = v]) changes the Python object only and is
      not recorded;
    - [db.commit] writes what is registered and recorded, and makes the
      result durable; [db.refresh] reloads an instance from its row;
    - [created_datetime] has a server default: it is set when the row is
      written;
    - the checks of the storage engine itself (primary key, unique and
      foreign key constraints) are not part of these functions and are not
      modelled: the development describes the runs in which the engine
      accepts what is written. *)

From Stdlib Require Import ZArith String.
From stdpp Require Import base option list gmap strings.

Open Scope string_scope.
Open Scope list_scope.

(** ** Values of the JSON columns *)

(** A number is kept as a decimal literal: mantissa and power of ten. *)
#[warnings="-register-all"]
Inductive json : Type :=
| JNull
| JBool (b : bool)
| JNum (mantissa exponent : Z)
| JStr (s : string)
| JArr (items : list json)
| JObj (fields : list (string * json)).

(** [typing.Dict]: a Python dict with string keys. *)
Abbreviation Dict := (gmap string json).

(** ** models.py *)

Module Project.
Record t : Type := mk {
  project_id : string;
  project_name : string;
  description : option string;
  created_datetime : option Z
}.
End Project.

Module Model.
Record t : Type := mk {
  model_id : string;
  project_id : string;
  model_name : string;
  description : option string;
  created_datetime : option Z
}.
End Model.

Module Experiment.
Record t : Type := mk {
  experiment_id : string;
  model_id : string;
  model_version_id : string;
  parameters : option Dict;
  training_dataset : option string;
  validation_dataset : option string;
  test_dataset : option string;
  evaluations : option Dict;
  artifact_file_paths : option Dict;
  created_datetime : option Z
}.

Definition with_evaluations (v : option Dict) (e : t) : t :=
  mk (experiment_id e) (model_id e) (model_version_id e) (parameters e)
     (training_dataset e) (validation_dataset e) (test_dataset e)
     v (artifact_file_paths e) (created_datetime e).

Definition with_artifact_file_paths (v : option Dict) (e : t) : t :=
  mk (experiment_id e) (model_id e) (model_version_id e) (parameters e)
     (training_dataset e) (validation_dataset e) (test_dataset e)
     (evaluations e) v (created_datetime e).
End Experiment.

(** ** The session *)

(** The three tables, each in the order its rows were written. *)
Record Tables : Type := mkTables {
  projects : list Project.t;
  models : list Model.t;
  experiments : list Experiment.t
}.

(** An instance handed to [db.add]. *)
Inductive Instance : Type :=
| NewProject (p : Project.t)
| NewModel (m : Model.t)
| NewExperiment (e : Experiment.t).

(** An attribute assignment on a loaded experiment, as the session records
    it: the primary key of the row and the new value of the column. *)
Inductive Write : Type :=
| SetEvaluations (experiment_id : string) (v : option Dict)
| SetArtifactFilePaths (experiment_id : string) (v : option Dict).

Record Session : Type := mkSession {
  flushed : Tables;          (* the rows queries read *)
  new : list Instance;       (* registered by add, not written yet *)
  dirty : list Write;        (* recorded assignments, not written yet *)
  committed : Tables         (* the durable rows *)
}.

(** What a call draws from its environment: the text of [uuid.uuid4()] and
    the engine's [current_timestamp()]. *)
Record Env : Type := mkEnv {
  uuid4 : string;
  current_timestamp : Z
}.

(** Exceptions that reach the caller. *)
Inductive Exception : Type :=
| AttributeError        (* an attribute of None was read *)
| InvalidRequestError   (* refresh found no row for the instance *)
| OtherError (name : string).

Inductive result (A : Type) : Type :=
| Ok (a : A)
| Raise (e : Exception).
Arguments Ok {A} a.
Arguments Raise {A} e.

(** A computation on a session: its outcome and the session it leaves.  An
    exception does not undo what was done before it was raised. *)
Definition M (A : Type) : Type := Session -> result A * Session.

#[global] Instance M_ret : MRet M := fun A a db => (Ok a, db).
#[global] Instance M_bind : MBind M := fun A B f m db =>
  match m db with
  | (Ok a, db') => f a db'
  | (Raise e, db') => (Raise e, db')
  end.

Definition raise {A : Type} (e : Exception) : M A := fun db => (Raise e, db).
Definition gets {A : Type} (f : Session -> A) : M A := fun db => (Ok (f db), db).
Definition modify (f : Session -> Session) : M unit := fun db => (Ok tt, f db).

(** *** Writing to the database *)

Definition stamp (now : Z) (t : option Z) : option Z :=
  match t with
  | Some t0 => Some t0
  | None => Some now
  end.

(** The row written for an instance: the server default fills
    [created_datetime]. *)
Definition project_row (now : Z) (p : Project.t) : Project.t :=
  Project.mk (Project.project_id p) (Project.project_name p)
    (Project.description p) (stamp now (Project.created_datetime p)).

Definition model_row (now : Z) (m : Model.t) : Model.t :=
  Model.mk (Model.model_id m) (Model.project_id m) (Model.model_name m)
    (Model.description m) (stamp now (Model.created_datetime m)).

Definition experiment_row (now : Z) (e : Experiment.t) : Experiment.t :=
  Experiment.mk (Experiment.experiment_id e) (Experiment.model_id e)
    (Experiment.model_version_id e) (Experiment.parameters e)
    (Experiment.training_dataset e) (Experiment.validation_dataset e)
    (Experiment.test_dataset e) (Experiment.evaluations e)
    (Experiment.artifact_file_paths e)
    (stamp now (Experiment.created_datetime e)).

Definition insert_row (now : Z) (t : Tables) (i : Instance) : Tables :=
  match i with
  | NewProject p =>
      mkTables (projects t ++ [project_row now p]) (models t) (experiments t)
  | NewModel m =>
      mkTables (projects t) (models t ++ [model_row now m]) (experiments t)
  | NewExperiment e =>
      mkTables (projects t) (models t) (experiments t ++ [experiment_row now e])
  end.

(** UPDATE experiments SET column = v WHERE experiment_id = pk. *)
Definition update_rows (t : Tables) (w : Write) : Tables :=
  match w with
  | SetEvaluations pk v =>
      mkTables (projects t) (models t)
        ((fun e => if decide (Experiment.experiment_id e = pk)
                   then Experiment.with_evaluations v e else e)
           <$> experiments t)
  | SetArtifactFilePaths pk v =>
      mkTables (projects t) (models t)
        ((fun e => if decide (Experiment.experiment_id e = pk)
                   then Experiment.with_artifact_file_paths v e else e)
           <$> experiments t)
  end.

(** The registered instances are inserted, then the recorded assignments
    are applied. *)
Definition flush (now : Z) (db : Session) : Session :=
  mkSession
    (foldl update_rows (foldl (insert_row now) (flushed db) (new db)) (dirty db))
    [] [] (committed db).

(** *** Session methods *)

(** [db.add(data)] *)
Definition session_add (i : Instance) : M unit :=
  modify (fun db => mkSession (flushed db) (new db ++ [i]) (dirty db) (committed db)).

(** What the session notes when a mapped attribute is assigned. *)
Definition session_record (w : Write) : M unit :=
  modify (fun db => mkSession (flushed db) (new db) (dirty db ++ [w]) (committed db)).

(** [db.commit()]: everything unwritten is written, and the rows become
    durable. *)
Definition session_commit (now : Z) : M unit :=
  modify (fun db =>
    let db' := flush now db in
    mkSession (flushed db') (new db') (dirty db') (flushed db')).

(** [db.rollback()]: back to the durable rows. *)
Definition session_rollback : M unit :=
  modify (fun db => mkSession (committed db) [] [] (committed db)).

(** [db.refresh(data)]: the instance is reloaded from the row with its
    primary key. *)
Definition refresh_project (data : Project.t) : M Project.t := fun db =>
  match head (filter (fun p => Project.project_id p = Project.project_id data)
                     (projects (flushed db))) with
  | Some row => (Ok row, db)
  | None => (Raise InvalidRequestError, db)
  end.

Definition refresh_model (data : Model.t) : M Model.t := fun db =>
  match head (filter (fun m => Model.model_id m = Model.model_id data)
                     (models (flushed db))) with
  | Some row => (Ok row, db)
  | None => (Raise InvalidRequestError, db)
  end.

Definition refresh_experiment (data : Experiment.t) : M Experiment.t := fun db =>
  match head (filter (fun e => Experiment.experiment_id e = Experiment.experiment_id data)
                     (experiments (flushed db))) with
  | Some row => (Ok row, db)
  | None => (Raise InvalidRequestError, db)
  end.

(** ** cruds.py *)

(** [str(uuid.uuid4())[:6]] *)
Definition new_id (env : Env) : string := substring 0 6 (uuid4 env).

Definition select_project_all (db : Session) : list Project.t :=
  projects (flushed db).

Definition select_project_by_id (db : Session) (project_id : string)
  : option Project.t :=
  head (filter (fun p => Project.project_id p = project_id) (projects (flushed db))).

Definition select_project_by_name (db : Session) (project_name : string)
  : option Project.t :=
  head (filter (fun p => Project.project_name p = project_name) (projects (flushed db))).

Definition add_project (project_name : string) (description : option string)
    (commit : bool) (env : Env) : M Project.t :=
  exists_ ← gets (fun db => select_project_by_name db project_name);
  match exists_ with
  | Some p => mret p
  | None =>
      let project_id := new_id env in
      let data := Project.mk project_id project_name description None in
      session_add (NewProject data);;
      if commit
      then session_commit (current_timestamp env);; refresh_project data
      else mret data
  end.

Definition select_model_all (db : Session) : list Model.t :=
  models (flushed db).

Definition select_model_by_id (db : Session) (model_id : string)
  : option Model.t :=
  head (filter (fun m => Model.model_id m = model_id) (models (flushed db))).

Definition select_model_by_project_id (db : Session) (project_id : string)
  : list Model.t :=
  filter (fun m => Model.project_id m = project_id) (models (flushed db)).

(** [project.project_id] is read from whatever the lookup by name returned. *)
Definition select_model_by_project_name (project_name : string)
  : M (list Model.t) :=
  project ← gets (fun db => select_project_by_name db project_name);
  match project with
  | None => raise AttributeError
  | Some project =>
      gets (fun db =>
        filter (fun m => Model.project_id m = Project.project_id project)
               (models (flushed db)))
  end.

Definition select_model_by_name (db : Session) (model_name : string)
  : list Model.t :=
  filter (fun m => Model.model_name m = model_name) (models (flushed db)).

(** The loop of [add_model]: the first model of the list with that name. *)
Fixpoint first_named (model_name : string) (models_in_project : list Model.t)
  : option Model.t :=
  match models_in_project with
  | [] => None
  | model :: rest =>
      if decide (Model.model_name model = model_name)
      then Some model
      else first_named model_name rest
  end.

Definition add_model (project_id model_name : string)
    (description : option string) (commit : bool) (env : Env) : M Model.t :=
  models_in_project ← gets (fun db => select_model_by_project_id db project_id);
  match first_named model_name models_in_project with
  | Some model => mret model
  | None =>
      let model_id := new_id env in
      let data := Model.mk model_id project_id model_name description None in
      session_add (NewModel data);;
      if commit
      then session_commit (current_timestamp env);; refresh_model data
      else mret data
  end.

Definition select_experiment_all (db : Session) : list Experiment.t :=
  experiments (flushed db).

Definition select_experiment_by_id (db : Session) (experiment_id : string)
  : option Experiment.t :=
  head (filter (fun e => Experiment.experiment_id e = experiment_id)
               (experiments (flushed db))).

Definition select_experiment_by_model_version_id (db : Session)
    (model_version_id : string) : option Experiment.t :=
  head (filter (fun e => Experiment.model_version_id e = model_version_id)
               (experiments (flushed db))).

Definition select_experiment_by_model_id (db : Session) (model_id : string)
  : list Experiment.t :=
  filter (fun e => Experiment.model_id e = model_id) (experiments (flushed db)).

(** A query over two entities: the rows of [experiments] x [models] that
    pass both filters. *)
Definition select_experiment_by_project_id (db : Session) (project_id : string)
  : list (Experiment.t * Model.t) :=
  filter (fun em => Experiment.model_id em.1 = Model.model_id em.2)
    (filter (fun em => Model.project_id em.2 = project_id)
       (cprod (experiments (flushed db)) (models (flushed db)))).

Definition add_experiment (model_version_id model_id : string)
    (parameters : option Dict)
    (training_dataset validation_dataset test_dataset : option string)
    (evaluations artifact_file_paths : option Dict)
    (commit : bool) (env : Env) : M Experiment.t :=
  let experiment_id := new_id env in
  let data :=
    Experiment.mk experiment_id model_id model_version_id parameters
      training_dataset validation_dataset test_dataset
      evaluations artifact_file_paths None in
  session_add (NewExperiment data);;
  if commit
  then session_commit (current_timestamp env);; refresh_experiment data
  else mret data.

(** [for k, v in items: d[k] = v] on a dict [d]. *)
Definition setitems (d : Dict) (items : list (string * json)) : Dict :=
  foldl (fun acc kv => <[kv.1 := kv.2]> acc) d items.

(** [data.evaluations = v]: the object changes and the session records it. *)
Definition setattr_evaluations (data : Experiment.t) (v : option Dict)
  : M Experiment.t :=
  session_record (SetEvaluations (Experiment.experiment_id data) v);;
  mret (Experiment.with_evaluations v data).

Definition setattr_artifact_file_paths (data : Experiment.t) (v : option Dict)
  : M Experiment.t :=
  session_record (SetArtifactFilePaths (Experiment.experiment_id data) v);;
  mret (Experiment.with_artifact_file_paths v data).

Definition update_experiment_evaluation (experiment_id : string)
    (evaluations : Dict) (env : Env) : M Experiment.t :=
  data ← gets (fun db => select_experiment_by_id db experiment_id);
  match data with
  | None => raise AttributeError
  | Some data =>
      data ← match Experiment.evaluations data with
             | None => setattr_evaluations data (Some evaluations)
             | Some d =>
                 (* item assignment into the loaded dict: the object only *)
                 mret (Experiment.with_evaluations
                         (Some (setitems d (map_to_list evaluations))) data)
             end;
      session_commit (current_timestamp env);;
      refresh_experiment data
  end.

Definition update_experiment_artifact_file_paths (experiment_id : string)
    (artifact_file_paths : Dict) (env : Env) : M Experiment.t :=
  data ← gets (fun db => select_experiment_by_id db experiment_id);
  match data with
  | None => raise AttributeError
  | Some data =>
      data ← match Experiment.artifact_file_paths data with
             | None => setattr_artifact_file_paths data (Some artifact_file_paths)
             | Some d =>
                 mret (Experiment.with_artifact_file_paths
                         (Some (setitems d (map_to_list artifact_file_paths))) data)
             end;
      session_commit (current_timestamp env);;
      refresh_experiment data
  end.

(** ** database.py *)

(** The lifecycle calls a scope makes on the session it hands out. *)
Inductive Call : Type :=
| rollback
| close.

#[global] Instance Call_eq_dec : EqDecision Call.
Proof. solve_decision. Defined.

(** A session handle: the session and the lifecycle calls it has received,
    oldest first. *)
Record Handle : Type := mkHandle {
  session : Session;
  calls : list Call
}.

(** [SessionLocal()]: a new session on the engine's durable rows. *)
Definition SessionLocal (engine : Tables) : Handle :=
  mkHandle (mkSession engine [] [] engine) [].

(** [db.rollback()]: what was written or registered and not committed is
    dropped. *)
Definition db_rollback (db : Handle) : Handle :=
  mkHandle (session_rollback (session db)).2 (calls db ++ [rollback]).

(** [db.close()]: the connection is released; a transaction in progress is
    not committed. *)
Definition db_close (db : Handle) : Handle :=
  mkHandle (session_rollback (session db)).2 (calls db ++ [close]).

(** How a generator suspended at its [yield] is resumed: [next(gen)], or
    [gen.throw(e)]. *)
Inductive Resume : Type :=
| Next
| Throw (e : Exception).

(** What resuming it gives: the generator returned ([StopIteration]) or an
    exception left it. *)
Inductive Signal : Type :=
| StopIteration
| Raised (e : Exception).

(** A generator function with a single [yield]: the code that runs up to
    the [yield] and gives the value yielded, and the code that runs when
    the generator is resumed there. *)
Record Generator : Type := mkGenerator {
  to_yield : Tables -> Handle;
  from_yield : Resume -> Handle -> Signal * Handle
}.

(** [get_db]:
    [db = SessionLocal(); try: yield db; except: db.rollback(); raise;
     finally: db.close()] *)
Definition get_db : Generator :=
  mkGenerator
    (fun engine => SessionLocal engine)
    (fun r db =>
       match r with
       | Next => (StopIteration, db_close db)
       | Throw e =>
           let db := db_rollback db in
           (Raised e, db_close db)
       end).

(** The generator function under [@contextmanager] in [get_context_db]. *)
Definition get_context_db : Generator :=
  mkGenerator
    (fun engine => SessionLocal engine)
    (fun r db =>
       match r with
       | Next => (StopIteration, db_close db)
       | Throw e =>
           let db := db_rollback db in
           (Raised e, db_close db)
       end).

(** How a scope ends. *)
Inductive Outcome (A : Type) : Type :=
| Returned (a : A)          (* the body ended normally *)
| Escaped (e : Exception)   (* an exception left the scope *)
| Suppressed.               (* the body raised and the manager swallowed it *)
Arguments Returned {A} a.
Arguments Escaped {A} e.
Arguments Suppressed {A}.

(** [with contextmanager(g)() as db: body(db)].  [__enter__] runs the
    generator to its [yield]; [__exit__] resumes it with [next] when the
    body ended normally and with [throw] when it raised. *)
Definition with_ {A : Type} (g : Generator) (engine : Tables)
    (body : Handle -> result A * Handle) : Outcome A * Handle :=
  let db := to_yield g engine in
  match body db with
  | (Ok a, db) =>
      match from_yield g Next db with
      | (StopIteration, db) => (Returned a, db)
      | (Raised e, db) => (Escaped e, db)
      end
  | (Raise e, db) =>
      match from_yield g (Throw e) db with
      | (StopIteration, db) => (Suppressed, db)
      | (Raised e', db) => (Escaped e', db)
      end
  end.

(** Modelled from the spec: the caller of the dependency-injection style
    is not under src/.  The spec has the handle passed to the caller, who
    must trigger the cleanup: the handle is taken with [next], the request
    is served, and the generator is resumed, with the error when one
    escaped the request. *)
Definition depends {A : Type} (g : Generator) (engine : Tables)
    (request : Handle -> result A * Handle) : Outcome A * Handle :=
  let db := to_yield g engine in
  let '(served, db) := request db in
  let '(signal, db) :=
    from_yield g (match served with Ok _ => Next | Raise e => Throw e end) db in
  (match served, signal with
   | _, Raised e => Escaped e
   | Ok a, StopIteration => Returned a
   | Raise _, StopIteration => Suppressed
   end, db).

(** ** Vocabulary of the properties *)

(** Nothing is registered or recorded and unwritten: the state a session is
    in when it is created and after every commit. *)
Definition clean (db : Session) : Prop := new db = [] /\ dirty db = [].


(** The experiments registered with the session and not written yet. *)
Definition pending_experiments (l : list Instance) : list Experiment.t :=
  omap (fun i => match i with NewExperiment e => Some e | _ => None end) l.


(** The models registered with the session and not written yet. *)
Definition pending_models (l : list Instance) : list Model.t :=
  omap (fun i => match i with NewModel m => Some m | _ => None end) l.

(** The projects registered with the session and not written yet. *)
Definition pending_projects (l : list Instance) : list Project.t :=
  omap (fun i => match i with NewProject p => Some p | _ => None end) l.




(** The operations of the repository that can change a session, with their
    arguments.  The other [select_] functions are functions of the session
    and give no session back. *)
Inductive Operation : Type :=
| AddProject (project_name : string) (description : option string)
    (commit : bool) (env : Env)
| AddModel (project_id model_name : string) (description : option string)
    (commit : bool) (env : Env)
| AddExperiment (model_version_id model_id : string) (parameters : option Dict)
    (training_dataset validation_dataset test_dataset : option string)
    (evaluations artifact_file_paths : option Dict) (commit : bool) (env : Env)
| UpdateExperimentEvaluation (experiment_id : string) (evaluations : Dict)
    (env : Env)
| UpdateExperimentArtifactFilePaths (experiment_id : string)
    (artifact_file_paths : Dict) (env : Env)
| SelectModelByProjectName (project_name : string).

(** The session an operation leaves, whether it returned or raised. *)
Definition perform (db : Session) (op : Operation) : Session :=
  match op with
  | AddProject n d c env => (add_project n d c env db).2
  | AddModel p n d c env => (add_model p n d c env db).2
  | AddExperiment v m ps tr va te ev ar c env =>
      (add_experiment v m ps tr va te ev ar c env db).2
  | UpdateExperimentEvaluation id ev env =>
      (update_experiment_evaluation id ev env db).2
  | UpdateExperimentArtifactFilePaths id ar env =>
      (update_experiment_artifact_file_paths id ar env db).2
  | SelectModelByProjectName n => (select_model_by_project_name n db).2
  end.



(** An operation that writes nothing: an addition with [commit=False], or
    the lookup of the models of a named project. *)
Definition uncommitted (op : Operation) : Prop :=
  match op with
  | AddProject _ _ c _ => c = false
  | AddModel _ _ _ c _ => c = false
  | AddExperiment _ _ _ _ _ _ _ _ c _ => c = false
  | SelectModelByProjectName _ => True
  | _ => False
  end.

(** [x] is the earliest element of [l] that satisfies [P]. *)
Definition earliest {A : Type} (P : A -> Prop) (l : list A) (x : A) : Prop :=
  exists l1 l2, l = l1 ++ x :: l2 /\ P x /\ forall y, y ∈ l1 -> ~ P y.

(** The session once an instance is registered, and once an assignment is
    recorded. *)
Definition registered (i : Instance) (db : Session) : Session :=
  mkSession (flushed db) (new db ++ [i]) (dirty db) (committed db).

Definition recorded (w : Write) (db : Session) : Session :=
  mkSession (flushed db) (new db) (dirty db ++ [w]) (committed db).

(** An experiment without the two columns the updates assign. *)
Definition fixed_columns (e : Experiment.t) : Experiment.t :=
  Experiment.with_evaluations None (Experiment.with_artifact_file_paths None e).

(** No two stored rows of a table share their primary key. *)
Definition keys_unique (t : Tables) : Prop :=
  NoDup (Project.project_id <$> projects t) /\
  NoDup (Model.model_id <$> models t) /\
  NoDup (Experiment.experiment_id <$> experiments t).

(** Every addition is called with [commit=True]. *)
Definition committing (op : Operation) : Prop :=
  match op with
  | AddProject _ _ c _ => c = true
  | AddModel _ _ _ c _ => c = true
  | AddExperiment _ _ _ _ _ _ _ _ c _ => c = true
  | _ => True
  end.

(** The identifier an addition draws is the key of no stored row of its
    table. *)
Definition draws_new_key (db : Session) (op : Operation) : Prop :=
  match op with
  | AddProject _ _ _ env => select_project_by_id db (new_id env) = None
  | AddModel _ _ _ _ env => select_model_by_id db (new_id env) = None
  | AddExperiment _ _ _ _ _ _ _ _ _ env =>
      select_experiment_by_id db (new_id env) = None
  | _ => True
  end.

(** ** Sample data *)



Definition env_a : Env := mkEnv "3f2a9c1e-5b7d-4e21-9a63-0c8d1f4b7e55" 1700000000.
Definition env_c : Env := mkEnv "0c77e5a2-19f4-4d8b-b3a6-5e1f8c2d9a47" 1700000120.

Definition churn : Project.t :=
  Project.mk "3f2a9c" "churn" (Some "customer churn") (Some 1700000000%Z).

Definition churn_tables : Tables := mkTables [churn] [] [].

(** A session in which the project [churn] is stored. *)
Definition churn_session : Session := mkSession churn_tables [] [] churn_tables.

Definition env_d : Env := mkEnv "e94b2d60-7a13-4c5f-9d28-3b6a0f1e8c72" 1700000180.

Definition fraud : Project.t :=
  Project.mk "0c77e5" "fraud" None (Some 1700000120%Z).



Definition xgboost : Model.t :=
  Model.mk "b81d04" "3f2a9c" "xgboost" None (Some 1700000060%Z).

Definition xgboost_tables : Tables := mkTables [churn; fraud] [xgboost] [].

(** A session in which the model [xgboost] is stored under [churn]. *)
Definition xgboost_session : Session :=
  mkSession xgboost_tables [] [] xgboost_tables.


Definition accuracy_09 : Dict := {[ "accuracy" := JNum 9 (-1) ]}.
Definition f1_08 : Dict := {[ "f1" := JNum 8 (-1) ]}.
Definition weights_path : Dict := {[ "weights" := JStr "s3://models/xgb/v1.bin" ]}.
Definition report_path : Dict := {[ "report" := JStr "s3://models/xgb/v1.html" ]}.

(** A stored experiment without evaluations and artifacts. *)
Definition bare_run : Experiment.t :=
  Experiment.mk "0c77e5" "b81d04" "v1" None (Some "train.csv") None None
    None None (Some 1700000120%Z).

Definition bare_tables : Tables := mkTables [churn; fraud] [xgboost] [bare_run].

Definition bare_session : Session := mkSession bare_tables [] [] bare_tables.

(** The same experiment once an accuracy and a weights file are stored. *)
Definition scored_run : Experiment.t :=
  Experiment.mk "0c77e5" "b81d04" "v1" None (Some "train.csv") None None
    (Some accuracy_09) (Some weights_path) (Some 1700000120%Z).

Definition scored_tables : Tables := mkTables [churn; fraud] [xgboost] [scored_run].

Definition scored_session : Session := mkSession scored_tables [] [] scored_tables.

(** Two projects, two models each, two experiments each. *)
Definition grid_model (model_id project_id model_name : string) : Model.t :=
  Model.mk model_id project_id model_name None (Some 1700000200%Z).

Definition grid_run (experiment_id model_id version : string) : Experiment.t :=
  Experiment.mk experiment_id model_id version None None None None None None
    (Some 1700000300%Z).

Definition grid_tables : Tables :=
  mkTables [churn; fraud]
    [grid_model "m-c-1" "3f2a9c" "xgboost"; grid_model "m-c-2" "3f2a9c" "logit";
     grid_model "m-f-1" "0c77e5" "xgboost"; grid_model "m-f-2" "0c77e5" "forest"]
    [grid_run "e-c-11" "m-c-1" "v1"; grid_run "e-c-12" "m-c-1" "v2";
     grid_run "e-c-21" "m-c-2" "v1"; grid_run "e-c-22" "m-c-2" "v2";
     grid_run "e-f-11" "m-f-1" "v1"; grid_run "e-f-12" "m-f-1" "v2";
     grid_run "e-f-21" "m-f-2" "v1"; grid_run "e-f-22" "m-f-2" "v2"].

Definition grid_session : Session := mkSession grid_tables [] [] grid_tables.

(** * Properties *)

(** ** The session *)

Lemma projects_update_rows t ws :
  projects (foldl update_rows t ws) = projects t.
Proof.
  revert t. induction ws as [|w ws IH]; intros t; simpl; [reflexivity|].
  rewrite IH. destruct w; reflexivity.
Qed.

Lemma models_update_rows t ws :
  models (foldl update_rows t ws) = models t.
Proof.
  revert t. induction ws as [|w ws IH]; intros t; simpl; [reflexivity|].
  rewrite IH. destruct w; reflexivity.
Qed.

Lemma head_filter_snoc_None {A} (P : A -> Prop) `{!forall x, Decision (P x)}
    (l : list A) (x : A) :
  head (filter P l) = None -> P x -> head (filter P (l ++ [x])) = Some x.
Proof.
  intros Hl Hx. rewrite filter_app. apply head_None in Hl. rewrite Hl. simpl.
  rewrite filter_cons. destruct (decide (P x)); [reflexivity|contradiction].
Qed.

Lemma head_filter_app_Some {A} (P : A -> Prop) `{!forall x, Decision (P x)}
    (l k : list A) (x : A) :
  head (filter P l) = Some x -> head (filter P (l ++ k)) = Some x.
Proof.
  intros Hl. rewrite filter_app. destruct (filter P l); [discriminate|exact Hl].
Qed.

Lemma head_filter_None {A} (P : A -> Prop) `{!forall x, Decision (P x)}
    (l : list A) :
  head (filter P l) = None <-> forall x, x ∈ l -> ~ P x.
Proof.
  rewrite head_None. split.
  - intros Hnil x Hx HP. eapply filter_nil_not_elem_of; eauto.
  - intros Hall. induction l as [|y l IH]; [reflexivity|].
    rewrite filter_cons. destruct (decide (P y)) as [HP|HP].
    + exfalso. apply (Hall y); [left|exact HP].
    + apply IH. intros x Hx. apply Hall. right. exact Hx.
Qed.

Lemma head_filter_Some_elem {A} (P : A -> Prop) `{!forall x, Decision (P x)}
    (l : list A) (x : A) :
  head (filter P l) = Some x -> x ∈ l /\ P x.
Proof.
  intros Hx. apply head_Some_elem_of in Hx. apply list_elem_of_filter in Hx.
  destruct Hx; split; assumption.
Qed.

Lemma head_filter_snoc_hit {A} (P : A -> Prop) `{!forall x, Decision (P x)}
    (l : list A) (x : A) :
  P x -> exists r, head (filter P (l ++ [x])) = Some r /\ P r.
Proof.
  intros Hx. destruct (head (filter P l)) as [r|] eqn:Hl.
  - exists r. split; [apply head_filter_app_Some, Hl|].
    apply head_filter_Some_elem in Hl. tauto.
  - exists x. split; [apply head_filter_snoc_None; assumption|exact Hx].
Qed.

(** Unfolds the session monad down to pairs. *)
Ltac run :=
  unfold refresh_project, refresh_model, refresh_experiment,
    session_add, session_record, session_commit, session_rollback,
    mbind, M_bind, mret, M_ret, gets, modify, raise; simpl.

(** ** Projects *)



Lemma add_project_written db name d env :
  select_project_by_name db name = None ->
  clean db ->
  exists p,
    let row := Project.mk (new_id env) name d (Some (current_timestamp env)) in
    let t := mkTables (projects (flushed db) ++ [row])
                      (models (flushed db)) (experiments (flushed db)) in
    add_project name d true env db = (Ok p, mkSession t [] [] t) /\
    Project.project_id p = new_id env /\
    ((forall q, q ∈ projects (flushed db) -> Project.project_id q <> new_id env) ->
     p = row).
Proof.
  intros Hp [Hn Hd]. unfold add_project. run. rewrite Hp. run.
  unfold flush. simpl. rewrite Hn, Hd. simpl.
  unfold project_row, model_row, experiment_row. simpl.
  set (row := Project.mk (new_id env) name d (Some (current_timestamp env))).
  destruct (head_filter_snoc_hit
              (fun p => Project.project_id p = new_id env)
              (projects (flushed db)) row eq_refl) as (r & Hr & Hid).
  exists r. rewrite Hr. split; [reflexivity|]. split; [exact Hid|].
  intros Hfresh.
  assert (Hnone : head (filter (fun p => Project.project_id p = new_id env)
                               (projects (flushed db))) = None).
  { apply head_filter_None. exact Hfresh. }
  rewrite (head_filter_snoc_None _ _ row Hnone eq_refl) in Hr. congruence.
Qed.





(** ** Models *)









(** ** Experiments *)


Lemma experiment_ids_update_rows ws t :
  Experiment.experiment_id <$> experiments (foldl update_rows t ws) =
  Experiment.experiment_id <$> experiments t.
Proof.
  revert t. induction ws as [|w ws IH]; intros t; simpl; [reflexivity|].
  rewrite IH. destruct w; simpl; rewrite <- list_fmap_compose;
    apply list_fmap_ext; intros i e _; simpl;
    destruct (decide (Experiment.experiment_id e = experiment_id)); reflexivity.
Qed.











(** *** Updates of the JSON columns *)

(** The loop over the items computes the merge in which the keys of the
    input win. *)
Lemma setitems_list (l : list (string * json)) (d : Dict) :
  NoDup l.*1 -> setitems d l = list_to_map l ∪ d.
Proof.
  unfold setitems. revert d. induction l as [|[k v] l IH]; intros d Hnd; simpl.
  - rewrite (left_id_L ∅ (∪)). reflexivity.
  - apply NoDup_cons in Hnd as [Hk Hnd]. rewrite (IH _ Hnd).
    rewrite <- insert_union_l, <- insert_union_r; [reflexivity|].
    apply not_elem_of_list_to_map_1. exact Hk.
Qed.

Lemma setitems_union (d input : Dict) :
  setitems d (map_to_list input) = input ∪ d.
Proof.
  rewrite setitems_list by apply NoDup_fst_map_to_list.
  rewrite list_to_map_to_list. reflexivity.
Qed.

Lemma head_filter_fmap {A} (P : A -> Prop) `{!forall x, Decision (P x)}
    (f : A -> A) (l : list A) :
  (forall x, P (f x) <-> P x) ->
  head (filter P (f <$> l)) = f <$> head (filter P l).
Proof.
  intros Hf. induction l as [|x l IH]; simpl; [reflexivity|].
  rewrite !filter_cons.
  destruct (decide (P (f x))) as [H1|H1], (decide (P x)) as [H2|H2]; simpl.
  - reflexivity.
  - exfalso. apply H2, Hf, H1.
  - exfalso. apply H1, Hf, H2.
  - exact IH.
Qed.

Lemma update_experiment_evaluation_absent db id input env :
  select_experiment_by_id db id = None ->
  update_experiment_evaluation id input env db = (Raise AttributeError, db).
Proof. intros Hid. unfold update_experiment_evaluation. run. rewrite Hid. reflexivity. Qed.

Lemma update_experiment_artifact_file_paths_absent db id input env :
  select_experiment_by_id db id = None ->
  update_experiment_artifact_file_paths id input env db = (Raise AttributeError, db).
Proof.
  intros Hid. unfold update_experiment_artifact_file_paths. run. rewrite Hid.
  reflexivity.
Qed.

(** When the column is unset the input is assigned, written and reloaded. *)
Lemma update_experiment_evaluation_unset db id input env data :
  clean db ->
  select_experiment_by_id db id = Some data ->
  Experiment.evaluations data = None ->
  let t := mkTables (projects (flushed db)) (models (flushed db))
             ((fun e => if decide (Experiment.experiment_id e = id)
                        then Experiment.with_evaluations (Some input) e else e)
                <$> experiments (flushed db)) in
  update_experiment_evaluation id input env db =
    (Ok (Experiment.with_evaluations (Some input) data), mkSession t [] [] t).
Proof.
  intros [Hn Hd] Hsel Hnone. unfold update_experiment_evaluation. run.
  rewrite Hsel. run. rewrite Hnone. unfold setattr_evaluations. run.
  unfold flush. simpl. rewrite Hn, Hd. simpl.
  unfold select_experiment_by_id in Hsel.
  assert (Hdata : Experiment.experiment_id data = id).
  { apply head_filter_Some_elem in Hsel. tauto. }
  rewrite Hdata.
  rewrite (head_filter_fmap (fun e => Experiment.experiment_id e = id)).
  - rewrite Hsel. simpl. rewrite decide_True by exact Hdata. reflexivity.
  - intros x. destruct (decide (Experiment.experiment_id x = id)); simpl; tauto.
Qed.

(** When the column is set the items are assigned into the loaded dict;
    nothing is recorded, nothing is written, and the reload gives the
    stored row back. *)
Lemma update_experiment_evaluation_set db id input env data d :
  clean db ->
  select_experiment_by_id db id = Some data ->
  Experiment.evaluations data = Some d ->
  update_experiment_evaluation id input env db =
    (Ok data, mkSession (flushed db) [] [] (flushed db)).
Proof.
  intros [Hn Hd] Hsel Hsome. unfold update_experiment_evaluation. run.
  rewrite Hsel. run. rewrite Hsome. run.
  unfold flush. simpl. rewrite Hn, Hd. simpl.
  unfold select_experiment_by_id in Hsel.
  assert (Hdata : Experiment.experiment_id data = id).
  { apply head_filter_Some_elem in Hsel. tauto. }
  rewrite Hdata, Hsel. reflexivity.
Qed.

Lemma update_experiment_artifact_file_paths_unset db id input env data :
  clean db ->
  select_experiment_by_id db id = Some data ->
  Experiment.artifact_file_paths data = None ->
  let t := mkTables (projects (flushed db)) (models (flushed db))
             ((fun e => if decide (Experiment.experiment_id e = id)
                        then Experiment.with_artifact_file_paths (Some input) e
                        else e)
                <$> experiments (flushed db)) in
  update_experiment_artifact_file_paths id input env db =
    (Ok (Experiment.with_artifact_file_paths (Some input) data),
     mkSession t [] [] t).
Proof.
  intros [Hn Hd] Hsel Hnone. unfold update_experiment_artifact_file_paths. run.
  rewrite Hsel. run. rewrite Hnone. unfold setattr_artifact_file_paths. run.
  unfold flush. simpl. rewrite Hn, Hd. simpl.
  unfold select_experiment_by_id in Hsel.
  assert (Hdata : Experiment.experiment_id data = id).
  { apply head_filter_Some_elem in Hsel. tauto. }
  rewrite Hdata.
  rewrite (head_filter_fmap (fun e => Experiment.experiment_id e = id)).
  - rewrite Hsel. simpl. rewrite decide_True by exact Hdata. reflexivity.
  - intros x. destruct (decide (Experiment.experiment_id x = id)); simpl; tauto.
Qed.

Lemma update_experiment_artifact_file_paths_set db id input env data d :
  clean db ->
  select_experiment_by_id db id = Some data ->
  Experiment.artifact_file_paths data = Some d ->
  update_experiment_artifact_file_paths id input env db =
    (Ok data, mkSession (flushed db) [] [] (flushed db)).
Proof.
  intros [Hn Hd] Hsel Hsome. unfold update_experiment_artifact_file_paths. run.
  rewrite Hsel. run. rewrite Hsome. run.
  unfold flush. simpl. rewrite Hn, Hd. simpl.
  unfold select_experiment_by_id in Hsel.
  assert (Hdata : Experiment.experiment_id data = id).
  { apply head_filter_Some_elem in Hsel. tauto. }
  rewrite Hdata, Hsel. reflexivity.
Qed.

(** C4, on the experiment [0c77e5].  From the experiment without
    evaluations, the first update stores the input.  The second update,
    with another key, runs the loop on the loaded dict, which the session
    does not record: nothing is written, the reload gives the stored value
    back, and the record returned and the row still hold the accuracy
    alone, not the merge.  The same for the artifact file paths. *)
Lemma update_experiment_merge_not_stored :
  update_experiment_evaluation "0c77e5" accuracy_09 env_d bare_session =
    (Ok (Experiment.with_evaluations (Some accuracy_09) bare_run),
     let t := mkTables [churn; fraud] [xgboost]
                [Experiment.with_evaluations (Some accuracy_09) bare_run] in
     mkSession t [] [] t) /\
  update_experiment_evaluation "0c77e5" f1_08 env_d scored_session =
    (Ok scored_run, scored_session) /\
  Experiment.evaluations scored_run = Some accuracy_09 /\
  setitems accuracy_09 (map_to_list f1_08) = f1_08 ∪ accuracy_09 /\
  accuracy_09 <> f1_08 ∪ accuracy_09 /\
  update_experiment_artifact_file_paths "0c77e5" report_path env_d scored_session =
    (Ok scored_run, scored_session) /\
  Experiment.artifact_file_paths scored_run = Some weights_path /\
  weights_path <> report_path ∪ weights_path.
Proof.
  split; [|split; [|split; [|split; [|split; [|split; [|split]]]]]].
  - apply (update_experiment_evaluation_unset bare_session "0c77e5" accuracy_09
             env_d bare_run); [split| |]; reflexivity.
  - apply (update_experiment_evaluation_set scored_session "0c77e5" f1_08
             env_d scored_run accuracy_09); [split| |]; reflexivity.
  - reflexivity.
  - apply setitems_union.
  - intros Heq. apply (f_equal (fun d : Dict => d !! "f1")) in Heq.
    vm_compute in Heq. discriminate.
  - apply (update_experiment_artifact_file_paths_set scored_session "0c77e5"
             report_path env_d scored_run weights_path); [split| |]; reflexivity.
  - reflexivity.
  - intros Heq. apply (f_equal (fun d : Dict => d !! "report")) in Heq.
    vm_compute in Heq. discriminate.
Qed.

(** C5.  When no stored experiment has the identifier, both updates fail:
    the lookup gives None, reading its attribute raises, the exception
    reaches the caller, and the session is left exactly as it was, so no
    experiment is created or modified.  (The exception is Python's
    AttributeError on None, the failure the specification calls
    Not-Found.) *)
Theorem update_experiment_absent_raises :
  forall (db : Session) (id : string),
    (forall e, e ∈ experiments (flushed db) -> Experiment.experiment_id e <> id) ->
    (forall (evaluations : Dict) (env : Env),
       update_experiment_evaluation id evaluations env db =
         (Raise AttributeError, db)) /\
    (forall (artifact_file_paths : Dict) (env : Env),
       update_experiment_artifact_file_paths id artifact_file_paths env db =
         (Raise AttributeError, db)).
Proof.
  intros db id Habsent.
  assert (Hsel : select_experiment_by_id db id = None).
  { unfold select_experiment_by_id. apply head_filter_None. exact Habsent. }
  split; intros input env.
  - apply update_experiment_evaluation_absent. exact Hsel.
  - apply update_experiment_artifact_file_paths_absent. exact Hsel.
Qed.

Lemma update_experiment_absent_raises_witness :
  (forall e, e ∈ experiments (flushed bare_session) ->
             Experiment.experiment_id e <> "e94b2d") /\
  update_experiment_evaluation "e94b2d" accuracy_09 env_d bare_session =
    (Raise AttributeError, bare_session) /\
  update_experiment_artifact_file_paths "e94b2d" weights_path env_d bare_session =
    (Raise AttributeError, bare_session).
Proof.
  assert (Habsent : forall e, e ∈ experiments (flushed bare_session) ->
                              Experiment.experiment_id e <> "e94b2d").
  { intros e He. apply list_elem_of_singleton in He. subst e. discriminate. }
  split; [exact Habsent|].
  destruct (update_experiment_absent_raises bare_session "e94b2d" Habsent)
    as [Hevaluations Hpaths].
  split; [apply Hevaluations|apply Hpaths].
Defined.

(** ** Models of a project given by name *)

(** C6, as amended.  When no stored project has the name, the lookup gives
    None and reading its [project_id] raises: the call fails with the
    exception (Python's AttributeError on None), which reaches the caller,
    and the session is left as it was.  When a project with the name is
    stored, the call returns exactly the stored models whose [project_id] is
    the identifier of that project, in the order of the table. *)
Theorem select_model_by_project_name_spec :
  forall (db : Session) (name : string),
    ((forall p, p ∈ projects (flushed db) -> Project.project_name p <> name) ->
     select_model_by_project_name name db = (Raise AttributeError, db)) /\
    (forall project,
       select_project_by_name db name = Some project ->
       select_model_by_project_name name db =
         (Ok (select_model_by_project_id db (Project.project_id project)), db) /\
       forall m,
         m ∈ select_model_by_project_id db (Project.project_id project) <->
         m ∈ models (flushed db) /\
         Model.project_id m = Project.project_id project).
Proof.
  intros db name. split.
  - intros Habsent.
    assert (Hsel : select_project_by_name db name = None).
    { unfold select_project_by_name. apply head_filter_None. exact Habsent. }
    unfold select_model_by_project_name. run. rewrite Hsel. reflexivity.
  - intros project Hsel. split.
    + unfold select_model_by_project_name. run. rewrite Hsel. reflexivity.
    + intros m. unfold select_model_by_project_id.
      rewrite list_elem_of_filter. tauto.
Qed.

Lemma select_model_by_project_name_spec_witness :
  (forall p, p ∈ projects (flushed xgboost_session) ->
             Project.project_name p <> "pricing") /\
  select_model_by_project_name "pricing" xgboost_session =
    (Raise AttributeError, xgboost_session) /\
  select_project_by_name xgboost_session "churn" = Some churn /\
  select_model_by_project_name "churn" xgboost_session =
    (Ok [xgboost], xgboost_session).
Proof.
  assert (Habsent : forall p, p ∈ projects (flushed xgboost_session) ->
                              Project.project_name p <> "pricing").
  { intros p Hp. apply elem_of_cons in Hp as [->|Hp]; [discriminate|].
    apply list_elem_of_singleton in Hp. subst p. discriminate. }
  split; [exact Habsent|]. split.
  - apply (select_model_by_project_name_spec xgboost_session "pricing").
    exact Habsent.
  - split; [reflexivity|].
    destruct (select_model_by_project_name_spec xgboost_session "churn")
      as [_ Hstored].
    destruct (Hstored churn eq_refl) as [Hrun _]. exact Hrun.
Defined.

(** C6 as stated fails: for a name no stored project has, the call does
    not return the empty sequence, it raises. *)
Lemma select_model_by_project_name_unknown_raises :
  select_project_by_name xgboost_session "pricing" = None /\
  select_model_by_project_name "pricing" xgboost_session =
    (Raise AttributeError, xgboost_session) /\
  (select_model_by_project_name "pricing" xgboost_session).1 <> Ok [].
Proof. repeat split. discriminate. Qed.

(** ** Experiments of a project *)

(** C8.  [select_experiment_by_project_id] returns exactly the pairs of a
    stored experiment and a stored model such that the model belongs to
    the project and the experiment belongs to the model: every such pair is
    returned, and every pair returned is such a pair, so each experiment
    comes with its own model. *)
Theorem select_experiment_by_project_id_spec :
  forall (db : Session) (project_id : string) (e : Experiment.t) (m : Model.t),
    (e, m) ∈ select_experiment_by_project_id db project_id <->
    e ∈ experiments (flushed db) /\
    m ∈ models (flushed db) /\
    Model.project_id m = project_id /\
    Experiment.model_id e = Model.model_id m.
Proof.
  intros db project_id e m. unfold select_experiment_by_project_id.
  rewrite !list_elem_of_filter, list_elem_of_cprod. simpl. tauto.
Qed.

(** On the grid of two projects, the query gives the four experiments of
    the project asked for, each with its model. *)
Example select_experiment_by_project_id_grid :
  select_experiment_by_project_id grid_session "3f2a9c" =
    [(grid_run "e-c-11" "m-c-1" "v1", grid_model "m-c-1" "3f2a9c" "xgboost");
     (grid_run "e-c-12" "m-c-1" "v2", grid_model "m-c-1" "3f2a9c" "xgboost");
     (grid_run "e-c-21" "m-c-2" "v1", grid_model "m-c-2" "3f2a9c" "logit");
     (grid_run "e-c-22" "m-c-2" "v2", grid_model "m-c-2" "3f2a9c" "logit")] /\
  length (select_experiment_by_project_id grid_session "0c77e5") = 4.
Proof. split; reflexivity. Qed.

(** ** No check of the parent *)






(** ** Uniqueness of names *)

Lemma projects_insert_rows now l t :
  projects (foldl (insert_row now) t l) =
  projects t ++ (project_row now <$> pending_projects l).
Proof.
  revert t. induction l as [|i l IH]; intros t; simpl.
  - rewrite app_nil_r. reflexivity.
  - rewrite IH. destruct i; simpl; try reflexivity.
    rewrite <- app_assoc. reflexivity.
Qed.

Lemma models_insert_rows now l t :
  models (foldl (insert_row now) t l) =
  models t ++ (model_row now <$> pending_models l).
Proof.
  revert t. induction l as [|i l IH]; intros t; simpl.
  - rewrite app_nil_r. reflexivity.
  - rewrite IH. destruct i; simpl; try reflexivity.
    rewrite <- app_assoc. reflexivity.
Qed.

Lemma flush_projects now db :
  projects (flushed (flush now db)) =
  projects (flushed db) ++ (project_row now <$> pending_projects (new db)).
Proof. unfold flush. simpl. rewrite projects_update_rows. apply projects_insert_rows. Qed.

Lemma flush_models now db :
  models (flushed (flush now db)) =
  models (flushed db) ++ (model_row now <$> pending_models (new db)).
Proof. unfold flush. simpl. rewrite models_update_rows. apply models_insert_rows. Qed.


Lemma refresh_project_state data db : (refresh_project data db).2 = db.
Proof. unfold refresh_project. destruct (head _); reflexivity. Qed.

Lemma refresh_model_state data db : (refresh_model data db).2 = db.
Proof. unfold refresh_model. destruct (head _); reflexivity. Qed.

Lemma refresh_experiment_state data db : (refresh_experiment data db).2 = db.
Proof. unfold refresh_experiment. destruct (head _); reflexivity. Qed.

(** Unfolds the session monad and leaves the reload folded. *)
Ltac run_state :=
  unfold session_add, session_record, mbind, M_bind, mret, M_ret,
    gets, modify, raise; cbn [fst snd].








Lemma select_model_by_project_name_state n db :
  (select_model_by_project_name n db).2 = db.
Proof.
  unfold select_model_by_project_name. run_state.
  destruct (select_project_by_name db n); reflexivity.
Qed.





(** ** The two scopes *)

(** Resumed at the [yield], the two generators do the same. *)
Lemma get_db_from_yield r db :
  from_yield get_db r db = from_yield get_context_db r db /\
  from_yield get_db r db =
    match r with
    | Next => (StopIteration, db_close db)
    | Throw e => (Raised e, db_close (db_rollback db))
    end.
Proof. split; destruct r; reflexivity. Qed.

(** C9.  The two ways of taking a session have the same behaviour and keep
    the same contract.  For every body run with the session: the scope of
    [get_context_db] and the dependency on [get_db] end the same way and
    leave the same session.  When an exception leaves the body, the session
    receives [rollback] and then [close], and the same exception leaves the
    scope; when the body ends normally, the session receives [close] and no
    [rollback], and the scope returns what the body returned.  In both
    cases [close] is received exactly once from the scope. *)
Theorem scopes_agree_and_release :
  forall (A : Type) (engine : Tables) (body : Handle -> result A * Handle),
    with_ get_context_db engine body = depends get_db engine body /\
    with_ get_context_db engine body =
      (match body (SessionLocal engine) with
       | (Ok a, db) => (Returned a, db_close db)
       | (Raise e, db) => (Escaped e, db_close (db_rollback db))
       end) /\
    calls (with_ get_context_db engine body).2 =
      (let '(r, db) := body (SessionLocal engine) in
       calls db ++ match r with
                   | Ok _ => [close]
                   | Raise _ => [rollback; close]
                   end) /\
    length (filter (fun c => c = close) (calls (with_ get_context_db engine body).2)) =
      S (length (filter (fun c => c = close) (calls (body (SessionLocal engine)).2))).
Proof.
  intros A engine body. unfold with_, depends. simpl.
  destruct (body (SessionLocal engine)) as [[a|e] db]; simpl.
  - repeat split; try reflexivity.
    rewrite filter_app, length_app. simpl. lia.
  - repeat split; try reflexivity.
    + rewrite <- app_assoc. reflexivity.
    + rewrite <- app_assoc, filter_app, length_app. simpl. lia.
Qed.

(** A body that registers a project and then fails: the scope hands the
    exception on, and the session it leaves holds the durable rows only. *)
Example scope_rolls_back_registered_project :
  with_ get_context_db churn_tables
    (fun db =>
       let '(_, s) := add_project "fraud" None false env_c (session db) in
       (@Raise unit (OtherError "ValueError"), mkHandle s (calls db))) =
  (Escaped (OtherError "ValueError"),
   mkHandle churn_session [rollback; close]).
Proof. reflexivity. Qed.

(** * Further properties *)

(** ** Lookups of one row *)

Lemma head_filter_earliest {A} (P : A -> Prop) `{!forall x, Decision (P x)}
    (l : list A) (x : A) :
  head (filter P l) = Some x <-> earliest P l x.
Proof.
  split.
  - induction l as [|y l IH]; simpl; [discriminate|].
    rewrite filter_cons. destruct (decide (P y)) as [Hy|Hy]; simpl.
    + intros [= <-]. exists [], l. split; [reflexivity|]. split; [exact Hy|].
      intros z Hz. inversion Hz.
    + intros Hx. destruct (IH Hx) as (l1 & l2 & -> & HP & Hl1).
      exists (y :: l1), l2. split; [reflexivity|]. split; [exact HP|].
      intros z Hz. apply elem_of_cons in Hz as [->|Hz]; [exact Hy|auto].
  - intros (l1 & l2 & -> & HP & Hl1). rewrite filter_app.
    assert (Hnil : filter P l1 = []).
    { apply head_None. apply head_filter_None. exact Hl1. }
    rewrite Hnil. simpl. rewrite filter_cons.
    destruct (decide (P x)); [reflexivity|contradiction].
Qed.

(** X1.  The lookups of a single row never fail.  Each gives None exactly
    when no stored row matches, and otherwise the earliest stored row that
    matches: by primary key for [select_project_by_id],
    [select_model_by_id] and [select_experiment_by_id], by name for
    [select_project_by_name], by version for
    [select_experiment_by_model_version_id]. *)
Theorem select_one_gives_earliest_match :
  forall (db : Session) (key : string),
    (forall p, select_project_by_id db key = Some p <->
       earliest (fun q => Project.project_id q = key) (projects (flushed db)) p) /\
    (select_project_by_id db key = None <->
       forall q, q ∈ projects (flushed db) -> Project.project_id q <> key) /\
    (forall p, select_project_by_name db key = Some p <->
       earliest (fun q => Project.project_name q = key) (projects (flushed db)) p) /\
    (select_project_by_name db key = None <->
       forall q, q ∈ projects (flushed db) -> Project.project_name q <> key) /\
    (forall m, select_model_by_id db key = Some m <->
       earliest (fun q => Model.model_id q = key) (models (flushed db)) m) /\
    (select_model_by_id db key = None <->
       forall q, q ∈ models (flushed db) -> Model.model_id q <> key) /\
    (forall e, select_experiment_by_id db key = Some e <->
       earliest (fun q => Experiment.experiment_id q = key)
         (experiments (flushed db)) e) /\
    (select_experiment_by_id db key = None <->
       forall q, q ∈ experiments (flushed db) -> Experiment.experiment_id q <> key) /\
    (forall e, select_experiment_by_model_version_id db key = Some e <->
       earliest (fun q => Experiment.model_version_id q = key)
         (experiments (flushed db)) e) /\
    (select_experiment_by_model_version_id db key = None <->
       forall q, q ∈ experiments (flushed db) ->
                 Experiment.model_version_id q <> key).
Proof.
  intros db key.
  unfold select_project_by_id, select_project_by_name, select_model_by_id,
    select_experiment_by_id, select_experiment_by_model_version_id.
  repeat split; try (apply head_filter_earliest); try (apply head_filter_None);
    try (apply (proj2 (head_filter_earliest _ _ _)));
    try (apply (proj2 (head_filter_None _ _))); assumption.
Qed.

(** ** The loop of add_model *)

Lemma first_named_head name l :
  first_named name l = head (filter (fun m => Model.model_name m = name) l).
Proof.
  induction l as [|x l IH]; simpl; [reflexivity|].
  rewrite filter_cons. destruct (decide (Model.model_name x = name)); [reflexivity|exact IH].
Qed.

(** X2.  The loop by which [add_model] looks for an existing model, over
    the models of the project, finds the earliest stored model that has
    both the project and the name; it finds none exactly when no stored
    model has both.  In particular the model found is among those
    [select_model_by_name] gives for the name, whatever their project. *)
Theorem add_model_loop_finds_earliest_pair :
  forall (db : Session) (pid name : string),
    (forall m,
       first_named name (select_model_by_project_id db pid) = Some m <->
       earliest (fun q => Model.project_id q = pid /\ Model.model_name q = name)
         (models (flushed db)) m) /\
    (first_named name (select_model_by_project_id db pid) = None <->
     forall q, q ∈ models (flushed db) ->
               ~ (Model.project_id q = pid /\ Model.model_name q = name)) /\
    (forall m,
       first_named name (select_model_by_project_id db pid) = Some m ->
       m ∈ select_model_by_name db name /\ m ∈ select_model_by_project_id db pid).
Proof.
  intros db pid name.
  assert (Heq : first_named name (select_model_by_project_id db pid) =
                head (filter (fun q => Model.project_id q = pid /\
                                       Model.model_name q = name)
                        (models (flushed db)))).
  { rewrite first_named_head. unfold select_model_by_project_id.
    rewrite list_filter_filter. f_equal. apply list_filter_iff. tauto. }
  split; [|split].
  - intros m. rewrite Heq. apply head_filter_earliest.
  - rewrite Heq. apply head_filter_None.
  - intros m Hm. rewrite Heq in Hm. apply head_filter_Some_elem in Hm as [Hin [Hp Hn]].
    unfold select_model_by_name, select_model_by_project_id.
    rewrite !list_elem_of_filter. auto.
Qed.

(** ** Identifiers *)





(** ** Experiments of a project and of a model *)

Lemma NoDup_fmap_eq {A B} (f : A -> B) (l : list A) (x y : A) :
  NoDup (f <$> l) -> x ∈ l -> y ∈ l -> f x = f y -> x = y.
Proof.
  induction l as [|z l IH]; simpl; intros Hnd Hx Hy Hf; [inversion Hx|].
  apply NoDup_cons in Hnd as [Hz Hnd].
  apply elem_of_cons in Hx as [->|Hx], Hy as [->|Hy].
  - reflexivity.
  - exfalso. apply Hz. rewrite Hf. apply list_elem_of_fmap_2. exact Hy.
  - exfalso. apply Hz. rewrite <- Hf. apply list_elem_of_fmap_2. exact Hx.
  - apply IH; assumption.
Qed.

(** X4.  The experiments [select_experiment_by_project_id] gives for a
    project are those [select_experiment_by_model_id] gives for the models
    [select_model_by_project_id] gives for it.  An experiment whose
    [model_id] is the identifier of no stored model is given for no project.
    When no two stored models share a [model_id], an experiment is given
    with one model only and for one project only. *)
Theorem experiments_of_project_through_models :
  forall (db : Session),
    (forall p e,
       e ∈ (select_experiment_by_project_id db p).*1 <->
       exists m, m ∈ select_model_by_project_id db p /\
                 e ∈ select_experiment_by_model_id db (Model.model_id m)) /\
    (forall e,
       (forall m, m ∈ models (flushed db) ->
                  Model.model_id m <> Experiment.model_id e) ->
       forall p m, (e, m) ∉ select_experiment_by_project_id db p) /\
    (NoDup (Model.model_id <$> models (flushed db)) ->
     forall p1 p2 e m1 m2,
       (e, m1) ∈ select_experiment_by_project_id db p1 ->
       (e, m2) ∈ select_experiment_by_project_id db p2 ->
       m1 = m2 /\ p1 = p2).
Proof.
  intros db.
  assert (Hjoin : forall p e m,
            (e, m) ∈ select_experiment_by_project_id db p <->
            e ∈ experiments (flushed db) /\ m ∈ models (flushed db) /\
            Model.project_id m = p /\ Experiment.model_id e = Model.model_id m).
  { intros p e m. unfold select_experiment_by_project_id.
    rewrite !list_elem_of_filter, list_elem_of_cprod. simpl. tauto. }
  split; [|split].
  - intros p e. rewrite list_elem_of_fmap. split.
    + intros ([e' m] & -> & Hin). apply Hjoin in Hin as (He & Hm & Hp & Hid).
      exists m. unfold select_model_by_project_id, select_experiment_by_model_id.
      rewrite !list_elem_of_filter. auto.
    + intros (m & Hm & He).
      unfold select_model_by_project_id, select_experiment_by_model_id in *.
      apply list_elem_of_filter in Hm as [Hp Hm].
      apply list_elem_of_filter in He as [Hid He].
      exists (e, m). split; [reflexivity|]. apply Hjoin. auto.
  - intros e Hdangling p m Hin. apply Hjoin in Hin as (_ & Hm & _ & Hid).
    apply (Hdangling m Hm). symmetry. exact Hid.
  - intros Hnd p1 p2 e m1 m2 H1 H2.
    apply Hjoin in H1 as (_ & Hm1 & Hp1 & Hid1).
    apply Hjoin in H2 as (_ & Hm2 & Hp2 & Hid2).
    assert (Heq : m1 = m2).
    { apply (NoDup_fmap_eq Model.model_id (models (flushed db))); try assumption.
      congruence. }
    subst m2. split; [reflexivity|congruence].
Qed.

Lemma experiments_of_project_through_models_witness :
  NoDup (Model.model_id <$> models (flushed grid_session)) /\
  (grid_run "e-c-21" "m-c-2" "v1", grid_model "m-c-2" "3f2a9c" "logit")
    ∈ select_experiment_by_project_id grid_session "3f2a9c" /\
  (forall p2 m2,
     (grid_run "e-c-21" "m-c-2" "v1", m2)
       ∈ select_experiment_by_project_id grid_session p2 ->
     grid_model "m-c-2" "3f2a9c" "logit" = m2 /\ "3f2a9c" = p2) /\
  (forall p m, (grid_run "e-x-1" "m-x" "v1", m)
                 ∉ select_experiment_by_project_id grid_session p).
Proof.
  assert (Hnd : NoDup (Model.model_id <$> models (flushed grid_session))).
  { simpl. repeat (apply NoDup_cons; split;
      [rewrite ?elem_of_cons, ?elem_of_nil; intros Hin;
       repeat (destruct Hin as [Hin|Hin]; [discriminate|]); exact Hin|]).
    apply NoDup_nil_2. }
  assert (Hin : (grid_run "e-c-21" "m-c-2" "v1", grid_model "m-c-2" "3f2a9c" "logit")
                  ∈ select_experiment_by_project_id grid_session "3f2a9c").
  { vm_compute. do 2 right. left. }
  destruct (experiments_of_project_through_models grid_session)
    as (_ & Hdangling & Hone).
  split; [exact Hnd|]. split; [exact Hin|]. split.
  - intros p2 m2 H2. apply (Hone Hnd "3f2a9c" p2 _ _ m2 Hin H2).
  - apply Hdangling. intros m Hm. simpl in Hm.
    rewrite ?elem_of_cons, ?elem_of_nil in Hm.
    repeat (destruct Hm as [->|Hm]; [discriminate|]). contradiction.
Defined.

(** ** Additions that are not committed *)

Lemma uncommitted_step db op :
  uncommitted op ->
  flushed (perform db op) = flushed db /\
  dirty (perform db op) = dirty db /\
  committed (perform db op) = committed db.
Proof.
  intros Hop. destruct op; simpl in *; try contradiction; try subst commit.
  - unfold add_project. run_state.
    destruct (select_project_by_name db project_name); repeat split.
  - unfold add_model. run_state.
    destruct (first_named model_name (select_model_by_project_id db project_id));
      repeat split.
  - repeat split.
  - rewrite select_model_by_project_name_state. repeat split.
Qed.

(** X5.  Additions with [commit=False] write nothing: after any sequence of
    them the stored rows, and so the result of every lookup, are what they
    were, and so are the durable rows; a rollback then leaves the session a
    rollback would have left before them. *)
Theorem uncommitted_additions_write_nothing :
  forall (db : Session) (ops : list Operation),
    Forall uncommitted ops ->
    flushed (foldl perform db ops) = flushed db /\
    committed (foldl perform db ops) = committed db /\
    select_project_all (foldl perform db ops) = select_project_all db /\
    select_model_all (foldl perform db ops) = select_model_all db /\
    select_experiment_all (foldl perform db ops) = select_experiment_all db /\
    (session_rollback (foldl perform db ops)).2 = (session_rollback db).2.
Proof.
  intros db ops Hops.
  assert (H : flushed (foldl perform db ops) = flushed db /\
              dirty (foldl perform db ops) = dirty db /\
              committed (foldl perform db ops) = committed db).
  { revert db. induction Hops as [|op ops Hop _ IH]; intros db; simpl.
    - repeat split.
    - destruct (IH (perform db op)) as (Hf & Hd & Hc).
      destruct (uncommitted_step db op Hop) as (Hf' & Hd' & Hc').
      rewrite Hf, Hd, Hc. auto. }
  destruct H as (Hf & _ & Hc).
  unfold select_project_all, select_model_all, select_experiment_all,
    session_rollback, modify. simpl. rewrite Hf, Hc. repeat split.
Qed.

Lemma uncommitted_additions_write_nothing_witness :
  Forall uncommitted
    [AddProject "pricing" None false env_a;
     AddModel "3f2a9c" "logit" None false env_c;
     AddExperiment "v1" "b81d04" None None None None None None false env_d] /\
  select_project_all
    (foldl perform xgboost_session
       [AddProject "pricing" None false env_a;
        AddModel "3f2a9c" "logit" None false env_c;
        AddExperiment "v1" "b81d04" None None None None None None false env_d]) =
    [churn; fraud] /\
  length
    (new
       (foldl perform xgboost_session
          [AddProject "pricing" None false env_a;
           AddModel "3f2a9c" "logit" None false env_c;
           AddExperiment "v1" "b81d04" None None None None None None false env_d])) = 3 /\
  (session_rollback
     (foldl perform xgboost_session
        [AddProject "pricing" None false env_a;
         AddModel "3f2a9c" "logit" None false env_c;
         AddExperiment "v1" "b81d04" None None None None None None false env_d])).2 =
    xgboost_session.
Proof.
  assert (Hops : Forall uncommitted
            [AddProject "pricing" None false env_a;
             AddModel "3f2a9c" "logit" None false env_c;
             AddExperiment "v1" "b81d04" None None None None None None false env_d]).
  { repeat constructor. }
  destruct (uncommitted_additions_write_nothing xgboost_session _ Hops)
    as (_ & _ & Hall & _ & _ & Hback).
  split; [exact Hops|]. split; [exact Hall|]. split; [reflexivity|exact Hback].
Defined.

(** ** The session an operation leaves *)

Lemma add_project_state n d c env db :
  (add_project n d c env db).2 =
    match select_project_by_name db n with
    | Some _ => db
    | None =>
        let db1 := registered (NewProject (Project.mk (new_id env) n d None)) db in
        if c then (session_commit (current_timestamp env) db1).2 else db1
    end.
Proof.
  unfold add_project. run_state.
  destruct (select_project_by_name db n); [reflexivity|].
  run_state. destruct c; [|reflexivity].
  unfold session_commit at 1, modify. apply refresh_project_state.
Qed.

Lemma add_model_state p n d c env db :
  (add_model p n d c env db).2 =
    match first_named n (select_model_by_project_id db p) with
    | Some _ => db
    | None =>
        let db1 := registered (NewModel (Model.mk (new_id env) p n d None)) db in
        if c then (session_commit (current_timestamp env) db1).2 else db1
    end.
Proof.
  unfold add_model. run_state.
  destruct (first_named n (select_model_by_project_id db p)); [reflexivity|].
  run_state. destruct c; [|reflexivity].
  unfold session_commit at 1, modify. apply refresh_model_state.
Qed.

Lemma add_experiment_state v m ps tr va te ev ar c env db :
  (add_experiment v m ps tr va te ev ar c env db).2 =
    let db1 :=
      registered (NewExperiment (Experiment.mk (new_id env) m v ps tr va te ev ar None))
        db in
    if c then (session_commit (current_timestamp env) db1).2 else db1.
Proof.
  unfold add_experiment. run_state. destruct c; [|reflexivity].
  unfold session_commit at 1, modify. apply refresh_experiment_state.
Qed.

Lemma update_experiment_evaluation_state id input env db :
  (update_experiment_evaluation id input env db).2 =
    match select_experiment_by_id db id with
    | None => db
    | Some data =>
        (session_commit (current_timestamp env)
           (match Experiment.evaluations data with
            | None =>
                recorded (SetEvaluations (Experiment.experiment_id data) (Some input)) db
            | Some _ => db
            end)).2
    end.
Proof.
  unfold update_experiment_evaluation. run_state.
  destruct (select_experiment_by_id db id) as [data|]; [|reflexivity].
  destruct (Experiment.evaluations data); unfold setattr_evaluations; run_state;
    unfold session_commit at 1, modify; apply refresh_experiment_state.
Qed.

Lemma update_experiment_artifact_file_paths_state id input env db :
  (update_experiment_artifact_file_paths id input env db).2 =
    match select_experiment_by_id db id with
    | None => db
    | Some data =>
        (session_commit (current_timestamp env)
           (match Experiment.artifact_file_paths data with
            | None =>
                recorded
                  (SetArtifactFilePaths (Experiment.experiment_id data) (Some input)) db
            | Some _ => db
            end)).2
    end.
Proof.
  unfold update_experiment_artifact_file_paths. run_state.
  destruct (select_experiment_by_id db id) as [data|]; [|reflexivity].
  destruct (Experiment.artifact_file_paths data);
    unfold setattr_artifact_file_paths; run_state;
    unfold session_commit at 1, modify; apply refresh_experiment_state.
Qed.

(** ** Rows are never removed *)

Lemma experiments_insert_rows_app now l t :
  experiments (foldl (insert_row now) t l) =
  experiments t ++ (experiment_row now <$> pending_experiments l).
Proof.
  revert t. induction l as [|i l IH]; intros t; simpl.
  - rewrite app_nil_r. reflexivity.
  - rewrite IH. destruct i; simpl; try reflexivity.
    rewrite <- app_assoc. reflexivity.
Qed.

Lemma fixed_columns_update_rows ws t :
  fixed_columns <$> experiments (foldl update_rows t ws) =
  fixed_columns <$> experiments t.
Proof.
  revert t. induction ws as [|w ws IH]; intros t; simpl; [reflexivity|].
  rewrite IH. destruct w; simpl; rewrite <- list_fmap_compose;
    apply list_fmap_ext; intros i e _; simpl;
    destruct (decide (Experiment.experiment_id e = experiment_id)); reflexivity.
Qed.

Lemma commit_grows now db :
  projects (flushed db) `prefix_of` projects (flushed (session_commit now db).2) /\
  models (flushed db) `prefix_of` models (flushed (session_commit now db).2) /\
  (fixed_columns <$> experiments (flushed db)) `prefix_of`
    (fixed_columns <$> experiments (flushed (session_commit now db).2)).
Proof.
  unfold session_commit, modify. cbn [snd flushed].
  change (projects (flushed db) `prefix_of` projects (flushed (flush now db)) /\
          models (flushed db) `prefix_of` models (flushed (flush now db)) /\
          (fixed_columns <$> experiments (flushed db)) `prefix_of`
            (fixed_columns <$> experiments (flushed (flush now db)))).
  rewrite flush_projects, flush_models. unfold flush. cbn [flushed].
  rewrite fixed_columns_update_rows, experiments_insert_rows_app, fmap_app.
  repeat split; apply prefix_app_r; reflexivity.
Qed.

Lemma perform_shape db op :
  exists db1,
    flushed db1 = flushed db /\
    (perform db op = db1 \/ exists now, perform db op = (session_commit now db1).2).
Proof.
  destruct op; simpl.
  - rewrite add_project_state. destruct (select_project_by_name db project_name).
    + exists db. auto.
    + eexists (registered _ db). split; [reflexivity|].
      destruct commit; simpl; eauto.
  - rewrite add_model_state.
    destruct (first_named model_name (select_model_by_project_id db project_id)).
    + exists db. auto.
    + eexists (registered _ db). split; [reflexivity|].
      destruct commit; simpl; eauto.
  - rewrite add_experiment_state. eexists (registered _ db).
    split; [reflexivity|]. destruct commit; simpl; eauto.
  - rewrite update_experiment_evaluation_state.
    destruct (select_experiment_by_id db experiment_id) as [data|].
    + destruct (Experiment.evaluations data).
      * exists db. eauto.
      * eexists (recorded _ db). split; [reflexivity|]. eauto.
    + exists db. auto.
  - rewrite update_experiment_artifact_file_paths_state.
    destruct (select_experiment_by_id db experiment_id) as [data|].
    + destruct (Experiment.artifact_file_paths data).
      * exists db. eauto.
      * eexists (recorded _ db). split; [reflexivity|]. eauto.
    + exists db. auto.
  - rewrite select_model_by_project_name_state. exists db. auto.
Qed.

Lemma perform_grows db op :
  projects (flushed db) `prefix_of` projects (flushed (perform db op)) /\
  models (flushed db) `prefix_of` models (flushed (perform db op)) /\
  (fixed_columns <$> experiments (flushed db)) `prefix_of`
    (fixed_columns <$> experiments (flushed (perform db op))).
Proof.
  destruct (perform_shape db op) as (db1 & Hf & [->|[now ->]]).
  - rewrite Hf. repeat split; reflexivity.
  - rewrite <- Hf. apply commit_grows.
Qed.

(** X6.  No operation removes or rewrites a stored row.  Whatever the
    session holds, after any sequence of operations the projects stored
    before are the first rows of the project table, unchanged and in their
    order, the models likewise, and so are the experiments in every column
    but [evaluations] and [artifact_file_paths]. *)
Theorem stored_rows_are_kept :
  forall (db : Session) (ops : list Operation),
    projects (flushed db) `prefix_of` projects (flushed (foldl perform db ops)) /\
    models (flushed db) `prefix_of` models (flushed (foldl perform db ops)) /\
    (fixed_columns <$> experiments (flushed db)) `prefix_of`
      (fixed_columns <$> experiments (flushed (foldl perform db ops))).
Proof.
  intros db ops. revert db. induction ops as [|op ops IH]; intros db; simpl.
  - repeat split; reflexivity.
  - destruct (IH (perform db op)) as (Hp & Hm & He).
    destruct (perform_grows db op) as (Hp' & Hm' & He').
    repeat split; etransitivity; eassumption.
Qed.

(** ** Updates of an unset column *)

Lemma head_filter_fmap_other {A} (P Q : A -> Prop)
    `{!forall x, Decision (P x)} `{!forall x, Decision (Q x)}
    (g : A -> A) (l : list A) :
  (forall x, P (g x) <-> P x) ->
  (forall x, P x -> ~ Q x) ->
  head (filter P ((fun x => if decide (Q x) then g x else x) <$> l)) =
  head (filter P l).
Proof.
  intros Hg Hdisj. induction l as [|x l IH]; simpl; [reflexivity|].
  rewrite !filter_cons. destruct (decide (Q x)) as [Hq|Hq].
  - destruct (decide (P (g x))) as [H1|H1];
      [exfalso; apply (Hdisj x); [apply Hg, H1|exact Hq]|].
    destruct (decide (P x)) as [H2|H2]; [exfalso; apply H1, Hg, H2|exact IH].
  - destruct (decide (P x)); simpl; [reflexivity|exact IH].
Qed.

Lemma select_after_set_evaluations db id v :
  let t := mkTables (projects (flushed db)) (models (flushed db))
             ((fun e => if decide (Experiment.experiment_id e = id)
                        then Experiment.with_evaluations v e else e)
                <$> experiments (flushed db)) in
  select_experiment_by_id (mkSession t [] [] t) id =
    Experiment.with_evaluations v <$> select_experiment_by_id db id /\
  forall id', id' <> id ->
    select_experiment_by_id (mkSession t [] [] t) id' = select_experiment_by_id db id'.
Proof.
  unfold select_experiment_by_id. simpl. split.
  - rewrite (head_filter_fmap (fun e => Experiment.experiment_id e = id)).
    + destruct (head _) as [e|] eqn:He; simpl; [|reflexivity].
      apply head_filter_Some_elem in He as [_ He]. rewrite decide_True by exact He.
      reflexivity.
    + intros x. destruct (decide (Experiment.experiment_id x = id)); simpl; tauto.
  - intros id' Hne.
    apply (head_filter_fmap_other
             (fun e => Experiment.experiment_id e = id')
             (fun e => Experiment.experiment_id e = id)
             (Experiment.with_evaluations v)).
    + intros x. simpl. tauto.
    + intros x Hx Hx'. congruence.
Qed.

Lemma select_after_set_artifact_file_paths db id v :
  let t := mkTables (projects (flushed db)) (models (flushed db))
             ((fun e => if decide (Experiment.experiment_id e = id)
                        then Experiment.with_artifact_file_paths v e else e)
                <$> experiments (flushed db)) in
  select_experiment_by_id (mkSession t [] [] t) id =
    Experiment.with_artifact_file_paths v <$> select_experiment_by_id db id /\
  forall id', id' <> id ->
    select_experiment_by_id (mkSession t [] [] t) id' = select_experiment_by_id db id'.
Proof.
  unfold select_experiment_by_id. simpl. split.
  - rewrite (head_filter_fmap (fun e => Experiment.experiment_id e = id)).
    + destruct (head _) as [e|] eqn:He; simpl; [|reflexivity].
      apply head_filter_Some_elem in He as [_ He]. rewrite decide_True by exact He.
      reflexivity.
    + intros x. destruct (decide (Experiment.experiment_id x = id)); simpl; tauto.
  - intros id' Hne.
    apply (head_filter_fmap_other
             (fun e => Experiment.experiment_id e = id')
             (fun e => Experiment.experiment_id e = id)
             (Experiment.with_artifact_file_paths v)).
    + intros x. simpl. tauto.
    + intros x Hx Hx'. congruence.
Qed.

(** X7.  Updating a column that is unset stores the input and nothing else.
    From a session with nothing unwritten, for a stored experiment whose
    [evaluations] is unset, [update_experiment_evaluation] returns the
    experiment with the input as its evaluations, every other column as it
    was; a lookup by the identifier then gives that record, the lookup by
    any other identifier gives what it gave before, the projects and models
    are untouched, no experiment is added, and the change is durable.  The
    same for [update_experiment_artifact_file_paths] and an unset
    [artifact_file_paths]. *)
Theorem update_of_unset_column_stores_input :
  forall (db : Session) (id : string) (input : Dict) (env : Env)
         (data : Experiment.t),
    clean db ->
    select_experiment_by_id db id = Some data ->
    (Experiment.evaluations data = None ->
     exists db',
       update_experiment_evaluation id input env db =
         (Ok (Experiment.with_evaluations (Some input) data), db') /\
       select_experiment_by_id db' id =
         Some (Experiment.with_evaluations (Some input) data) /\
       (forall id', id' <> id ->
          select_experiment_by_id db' id' = select_experiment_by_id db id') /\
       select_project_all db' = select_project_all db /\
       select_model_all db' = select_model_all db /\
       length (select_experiment_all db') = length (select_experiment_all db) /\
       clean db' /\ committed db' = flushed db') /\
    (Experiment.artifact_file_paths data = None ->
     exists db',
       update_experiment_artifact_file_paths id input env db =
         (Ok (Experiment.with_artifact_file_paths (Some input) data), db') /\
       select_experiment_by_id db' id =
         Some (Experiment.with_artifact_file_paths (Some input) data) /\
       (forall id', id' <> id ->
          select_experiment_by_id db' id' = select_experiment_by_id db id') /\
       select_project_all db' = select_project_all db /\
       select_model_all db' = select_model_all db /\
       length (select_experiment_all db') = length (select_experiment_all db) /\
       clean db' /\ committed db' = flushed db').
Proof.
  intros db id input env data Hclean Hsel. split; intros Hnone.
  - eexists. split;
      [apply (update_experiment_evaluation_unset db id input env data Hclean Hsel Hnone)|].
    destruct (select_after_set_evaluations db id (Some input)) as [Hid Hother].
    simpl in Hid, Hother. rewrite Hid, Hsel.
    repeat split; try assumption.
    unfold select_experiment_all. simpl. apply length_fmap.
  - eexists. split;
      [apply (update_experiment_artifact_file_paths_unset db id input env data
                Hclean Hsel Hnone)|].
    destruct (select_after_set_artifact_file_paths db id (Some input))
      as [Hid Hother].
    simpl in Hid, Hother. rewrite Hid, Hsel.
    repeat split; try assumption.
    unfold select_experiment_all. simpl. apply length_fmap.
Qed.

Lemma update_of_unset_column_stores_input_witness :
  clean bare_session /\
  select_experiment_by_id bare_session "0c77e5" = Some bare_run /\
  Experiment.evaluations bare_run = None /\
  Experiment.artifact_file_paths bare_run = None /\
  (exists db',
     update_experiment_evaluation "0c77e5" accuracy_09 env_d bare_session =
       (Ok (Experiment.with_evaluations (Some accuracy_09) bare_run), db') /\
     select_experiment_by_id db' "0c77e5" =
       Some (Experiment.with_evaluations (Some accuracy_09) bare_run) /\
     (forall id', id' <> "0c77e5" ->
        select_experiment_by_id db' id' = select_experiment_by_id bare_session id') /\
     select_project_all db' = select_project_all bare_session /\
     select_model_all db' = select_model_all bare_session /\
     length (select_experiment_all db') = length (select_experiment_all bare_session) /\
     clean db' /\ committed db' = flushed db') /\
  (exists db',
     update_experiment_artifact_file_paths "0c77e5" weights_path env_d bare_session =
       (Ok (Experiment.with_artifact_file_paths (Some weights_path) bare_run), db') /\
     select_experiment_by_id db' "0c77e5" =
       Some (Experiment.with_artifact_file_paths (Some weights_path) bare_run) /\
     (forall id', id' <> "0c77e5" ->
        select_experiment_by_id db' id' = select_experiment_by_id bare_session id') /\
     select_project_all db' = select_project_all bare_session /\
     select_model_all db' = select_model_all bare_session /\
     length (select_experiment_all db') = length (select_experiment_all bare_session) /\
     clean db' /\ committed db' = flushed db').
Proof.
  assert (Hclean : clean bare_session) by (split; reflexivity).
  destruct (update_of_unset_column_stores_input bare_session "0c77e5" accuracy_09
              env_d bare_run Hclean eq_refl) as [Hev _].
  destruct (update_of_unset_column_stores_input bare_session "0c77e5" weights_path
              env_d bare_run Hclean eq_refl) as [_ Har].
  split; [exact Hclean|]. repeat (split; [reflexivity|]).
  split; [exact (Hev eq_refl)|exact (Har eq_refl)].
Defined.




(** ** Updates of a column that is set *)

(** X9.  An update never changes a column that is already set.  From a
    session with nothing unwritten, for a stored experiment whose
    [evaluations] is set, [update_experiment_evaluation] with any input
    returns the stored record as it is and leaves the stored rows as they
    were, so the same holds for every later update; likewise for
    [update_experiment_artifact_file_paths] and a set
    [artifact_file_paths]. *)
Theorem update_of_set_column_changes_nothing :
  forall (db : Session) (id : string) (data : Experiment.t),
    clean db ->
    select_experiment_by_id db id = Some data ->
    (forall d input env,
       Experiment.evaluations data = Some d ->
       exists db',
         update_experiment_evaluation id input env db = (Ok data, db') /\
         flushed db' = flushed db /\ clean db' /\
         select_experiment_by_id db' id = Some data) /\
    (forall d input env,
       Experiment.artifact_file_paths data = Some d ->
       exists db',
         update_experiment_artifact_file_paths id input env db = (Ok data, db') /\
         flushed db' = flushed db /\ clean db' /\
         select_experiment_by_id db' id = Some data).
Proof.
  intros db id data Hclean Hsel. split; intros d input env Hset; eexists.
  - split; [apply (update_experiment_evaluation_set db id input env data d);
            assumption|].
    split; [reflexivity|]. split; [split; reflexivity|exact Hsel].
  - split; [apply (update_experiment_artifact_file_paths_set db id input env data d);
            assumption|].
    split; [reflexivity|]. split; [split; reflexivity|exact Hsel].
Qed.

Lemma update_of_set_column_changes_nothing_witness :
  clean scored_session /\
  select_experiment_by_id scored_session "0c77e5" = Some scored_run /\
  (exists db',
     update_experiment_evaluation "0c77e5" f1_08 env_d scored_session =
       (Ok scored_run, db') /\
     flushed db' = flushed scored_session /\ clean db' /\
     select_experiment_by_id db' "0c77e5" = Some scored_run) /\
  (exists db',
     update_experiment_artifact_file_paths "0c77e5" report_path env_d scored_session =
       (Ok scored_run, db') /\
     flushed db' = flushed scored_session /\ clean db' /\
     select_experiment_by_id db' "0c77e5" = Some scored_run).
Proof.
  assert (Hclean : clean scored_session) by (split; reflexivity).
  destruct (update_of_set_column_changes_nothing scored_session "0c77e5" scored_run
              Hclean eq_refl) as [Hev Har].
  split; [exact Hclean|]. split; [reflexivity|]. split.
  - apply (Hev accuracy_09 f1_08 env_d). reflexivity.
  - apply (Har weights_path report_path env_d). reflexivity.
Defined.

(** ** Committed additions and the lookups *)


Lemma filter_snoc_miss {A} (P : A -> Prop) `{!forall x, Decision (P x)}
    (l : list A) (x : A) :
  ~ P x -> filter P (l ++ [x]) = filter P l.
Proof.
  intros Hx. rewrite filter_app, filter_cons.
  destruct (decide (P x)); [contradiction|apply app_nil_r].
Qed.

(** X10.  A project added with [commit=True] is found by the lookups.  From
    a session with nothing unwritten, for a name no stored project has and a
    new identifier, after [add_project] the project list is the former list
    followed by the new row, the lookup by the name and the lookup by the
    identifier give that row, the lookups by another name or identifier give
    what they gave before, and the row is durable. *)
Theorem added_project_is_found :
  forall (db : Session) (name : string) (d : option string) (env : Env),
    clean db ->
    select_project_by_name db name = None ->
    select_project_by_id db (new_id env) = None ->
    let row := Project.mk (new_id env) name d (Some (current_timestamp env)) in
    let db' := (add_project name d true env db).2 in
    select_project_all db' = select_project_all db ++ [row] /\
    select_project_by_name db' name = Some row /\
    select_project_by_id db' (new_id env) = Some row /\
    (forall name', name' <> name ->
       select_project_by_name db' name' = select_project_by_name db name') /\
    (forall id', id' <> new_id env ->
       select_project_by_id db' id' = select_project_by_id db id') /\
    committed db' = flushed db'.
Proof.
  intros db name d env Hclean Hname Hid row db'.
  destruct (add_project_written db name d env Hname Hclean) as (p & Hrun & _ & _).
  simpl in Hrun. unfold db'. rewrite Hrun. cbn [snd].
  unfold select_project_all, select_project_by_name, select_project_by_id in *.
  cbn [flushed projects]. fold row.
  split; [reflexivity|].
  split; [apply head_filter_snoc_None; [exact Hname|reflexivity]|].
  split; [apply head_filter_snoc_None; [exact Hid|reflexivity]|].
  split; [|split; [|reflexivity]].
  - intros name' Hne. rewrite filter_snoc_miss; [reflexivity|].
    simpl. congruence.
  - intros id' Hne. rewrite filter_snoc_miss; [reflexivity|].
    simpl. congruence.
Qed.

Lemma added_project_is_found_witness :
  clean churn_session /\
  select_project_by_name churn_session "fraud" = None /\
  select_project_by_id churn_session (new_id env_c) = None /\
  select_project_all (add_project "fraud" None true env_c churn_session).2 =
    [churn; Project.mk "0c77e5" "fraud" None (Some 1700000120%Z)] /\
  select_project_by_name (add_project "fraud" None true env_c churn_session).2 "fraud" =
    Some (Project.mk "0c77e5" "fraud" None (Some 1700000120%Z)) /\
  select_project_by_id (add_project "fraud" None true env_c churn_session).2 "3f2a9c" =
    Some churn.
Proof.
  assert (Hclean : clean churn_session) by (split; reflexivity).
  destruct (added_project_is_found churn_session "fraud" None env_c
              Hclean eq_refl eq_refl) as (Hall & Hname & _ & _ & Hother & _).
  split; [exact Hclean|]. split; [reflexivity|]. split; [reflexivity|].
  split; [exact Hall|]. split; [exact Hname|].
  rewrite (Hother "3f2a9c"); [reflexivity|discriminate].
Defined.





(** ** What a scope leaves *)

(** X13.  What is not committed does not outlive a scope.  For every body,
    whether it returns or raises, the session that [get_context_db] or
    [get_db] leaves holds the rows the body committed and nothing
    unwritten.  In particular a body that only adds with [commit=False]
    leaves the session as [SessionLocal] made it. *)
Theorem scope_keeps_committed_rows_only :
  forall (A : Type) (engine : Tables),
    (forall (body : Handle -> result A * Handle),
       session (with_ get_context_db engine body).2 =
         (session_rollback (session (body (SessionLocal engine)).2)).2 /\
       session (depends get_db engine body).2 =
         (session_rollback (session (body (SessionLocal engine)).2)).2) /\
    (forall (r : result A) (ops : list Operation),
       Forall uncommitted ops ->
       session
         (with_ get_context_db engine
            (fun db => (r, mkHandle (foldl perform (session db) ops) (calls db)))).2 =
         session (SessionLocal engine) /\
       session
         (depends get_db engine
            (fun db => (r, mkHandle (foldl perform (session db) ops) (calls db)))).2 =
         session (SessionLocal engine)).
Proof.
  intros A engine.
  assert (Hbody : forall body : Handle -> result A * Handle,
            session (with_ get_context_db engine body).2 =
              (session_rollback (session (body (SessionLocal engine)).2)).2 /\
            session (depends get_db engine body).2 =
              (session_rollback (session (body (SessionLocal engine)).2)).2).
  { intros body. unfold with_, depends. simpl.
    destruct (body (SessionLocal engine)) as [[a|e] db]; simpl; split; reflexivity. }
  split; [exact Hbody|].
  intros r ops Hops.
  set (body := fun db : Handle =>
                 (r, mkHandle (foldl perform (session db) ops) (calls db))).
  destruct (Hbody body) as [Hwith Hdep]. rewrite Hwith, Hdep.
  unfold body. cbn [snd session].
  assert (Hback : (session_rollback
                     (foldl perform (session (SessionLocal engine)) ops)).2 =
                  (session_rollback (session (SessionLocal engine))).2).
  { unfold session_rollback, modify. cbn [snd].
    assert (Hc : committed (foldl perform (session (SessionLocal engine)) ops) =
                 committed (session (SessionLocal engine))).
    { clear -Hops. generalize (session (SessionLocal engine)). intros db.
      revert db. induction Hops as [|op ops Hop _ IH]; intros db; simpl;
        [reflexivity|].
      rewrite IH. apply (uncommitted_step db op Hop). }
    rewrite Hc. reflexivity. }
  rewrite Hback. split; reflexivity.
Qed.

Lemma scope_keeps_committed_rows_only_witness :
  Forall uncommitted
    [AddProject "pricing" None false env_a;
     AddModel "3f2a9c" "logit" None false env_c] /\
  session
    (with_ get_context_db xgboost_tables
       (fun db =>
          (@Raise unit (OtherError "ValueError"),
           mkHandle
             (foldl perform (session db)
                [AddProject "pricing" None false env_a;
                 AddModel "3f2a9c" "logit" None false env_c])
             (calls db)))).2 = xgboost_session /\
  session
    (depends get_db xgboost_tables
       (fun db =>
          (Ok tt,
           mkHandle
             (foldl perform (session db)
                [AddProject "pricing" None false env_a;
                 AddModel "3f2a9c" "logit" None false env_c])
             (calls db)))).2 = xgboost_session.
Proof.
  assert (Hops : Forall uncommitted
            [AddProject "pricing" None false env_a;
             AddModel "3f2a9c" "logit" None false env_c]).
  { repeat constructor. }
  destruct (scope_keeps_committed_rows_only unit xgboost_tables) as [_ Hscope].
  split; [exact Hops|]. split.
  - apply (Hscope (Raise (OtherError "ValueError")) _ Hops).
  - apply (Hscope (Ok tt) _ Hops).
Defined.

(** ** One commit for several additions *)



(** ** Primary keys *)

Lemma NoDup_snoc_fresh {A} (l : list A) (x : A) :
  NoDup l -> x ∉ l -> NoDup (l ++ [x]).
Proof.
  intros Hnd Hx. apply NoDup_app. split; [exact Hnd|].
  split; [|apply NoDup_singleton].
  intros y Hy Hy'. apply list_elem_of_singleton in Hy'. subst y. contradiction.
Qed.

Lemma commit_clean_registered now i db :
  clean db ->
  (session_commit now (registered i db)).2 =
    mkSession (insert_row now (flushed db) i) [] [] (insert_row now (flushed db) i).
Proof.
  intros [Hn Hd]. unfold session_commit, modify, flush, registered. simpl.
  rewrite Hn, Hd. reflexivity.
Qed.

Lemma commit_clean_recorded now w db :
  clean db ->
  (session_commit now (recorded w db)).2 =
    mkSession (update_rows (flushed db) w) [] [] (update_rows (flushed db) w).
Proof.
  intros [Hn Hd]. unfold session_commit, modify, flush, recorded. simpl.
  rewrite Hn, Hd. reflexivity.
Qed.

Lemma commit_clean now db :
  clean db ->
  (session_commit now db).2 = mkSession (flushed db) [] [] (flushed db).
Proof.
  intros [Hn Hd]. unfold session_commit, modify, flush. simpl.
  rewrite Hn, Hd. reflexivity.
Qed.

Lemma keys_unique_update_rows t w :
  keys_unique t -> keys_unique (update_rows t w).
Proof.
  intros (Hp & Hm & He). unfold keys_unique.
  change (update_rows t w) with (foldl update_rows t [w]).
  rewrite projects_update_rows, models_update_rows, experiment_ids_update_rows.
  auto.
Qed.

(** X15.  Primary keys stay unique as long as the identifiers drawn are
    new.  From a session with nothing unwritten in which no two rows of a
    table share their key, every operation whose additions commit and draw
    an identifier that is the key of no stored row of the table leaves such
    a session again. *)
Theorem keys_stay_unique :
  forall (db : Session) (op : Operation),
    clean db ->
    keys_unique (flushed db) ->
    committing op ->
    draws_new_key db op ->
    keys_unique (flushed (perform db op)) /\ clean (perform db op).
Proof.
  intros db op Hclean Hkeys Hcommit Hnew.
  assert (Hsame : keys_unique (flushed db) /\ clean db) by (split; assumption).
  destruct Hkeys as (Hp & Hm & He).
  destruct op; simpl in *.
  - subst commit. rewrite add_project_state.
    destruct (select_project_by_name db project_name); [exact Hsame|].
    cbn zeta. rewrite commit_clean_registered by exact Hclean.
    split; [|split; reflexivity]. unfold keys_unique. simpl.
    split; [|split; assumption]. rewrite fmap_app. apply NoDup_snoc_fresh; [exact Hp|].
    simpl. intros Hin. apply list_elem_of_fmap in Hin as (q & Hq & Hin).
    unfold select_project_by_id in Hnew. rewrite head_filter_None in Hnew.
    apply (Hnew q Hin). auto.
  - subst commit. rewrite add_model_state.
    destruct (first_named model_name (select_model_by_project_id db project_id));
      [exact Hsame|].
    cbn zeta. rewrite commit_clean_registered by exact Hclean.
    split; [|split; reflexivity]. unfold keys_unique. simpl.
    split; [assumption|]. split; [|assumption].
    rewrite fmap_app. apply NoDup_snoc_fresh; [exact Hm|].
    simpl. intros Hin. apply list_elem_of_fmap in Hin as (q & Hq & Hin).
    unfold select_model_by_id in Hnew. rewrite head_filter_None in Hnew.
    apply (Hnew q Hin). auto.
  - subst commit. rewrite add_experiment_state.
    cbn zeta. rewrite commit_clean_registered by exact Hclean.
    split; [|split; reflexivity]. unfold keys_unique. simpl.
    split; [assumption|]. split; [assumption|].
    rewrite fmap_app. apply NoDup_snoc_fresh; [exact He|].
    simpl. intros Hin. apply list_elem_of_fmap in Hin as (q & Hq & Hin).
    unfold select_experiment_by_id in Hnew. rewrite head_filter_None in Hnew.
    apply (Hnew q Hin). auto.
  - rewrite update_experiment_evaluation_state.
    destruct (select_experiment_by_id db experiment_id) as [data|]; [|exact Hsame].
    destruct (Experiment.evaluations data).
    + rewrite commit_clean by exact Hclean. split; [|split; reflexivity].
      repeat split; assumption.
    + rewrite commit_clean_recorded by exact Hclean. split; [|split; reflexivity].
      apply keys_unique_update_rows. repeat split; assumption.
  - rewrite update_experiment_artifact_file_paths_state.
    destruct (select_experiment_by_id db experiment_id) as [data|]; [|exact Hsame].
    destruct (Experiment.artifact_file_paths data).
    + rewrite commit_clean by exact Hclean. split; [|split; reflexivity].
      repeat split; assumption.
    + rewrite commit_clean_recorded by exact Hclean. split; [|split; reflexivity].
      apply keys_unique_update_rows. repeat split; assumption.
  - rewrite select_model_by_project_name_state. exact Hsame.
Qed.

Lemma keys_stay_unique_witness :
  clean bare_session /\
  keys_unique (flushed bare_session) /\
  committing (AddExperiment "v2" "b81d04" None None None None None None true env_d) /\
  draws_new_key bare_session
    (AddExperiment "v2" "b81d04" None None None None None None true env_d) /\
  keys_unique
    (flushed
       (perform bare_session
          (AddExperiment "v2" "b81d04" None None None None None None true env_d))) /\
  (Experiment.experiment_id <$>
     experiments
       (flushed
          (perform bare_session
             (AddExperiment "v2" "b81d04" None None None None None None true env_d)))) =
    ["0c77e5"; "e94b2d"].
Proof.
  assert (Hclean : clean bare_session) by (split; reflexivity).
  assert (Hkeys : keys_unique (flushed bare_session)).
  { unfold keys_unique. simpl. repeat split.
    - apply NoDup_cons. split; [|apply NoDup_singleton].
      intros Hin. apply list_elem_of_singleton in Hin. discriminate.
    - apply NoDup_singleton.
    - apply NoDup_singleton. }
  split; [exact Hclean|]. split; [exact Hkeys|]. split; [reflexivity|].
  split; [reflexivity|]. split; [|reflexivity].
  apply (keys_stay_unique bare_session
           (AddExperiment "v2" "b81d04" None None None None None None true env_d)
           Hclean Hkeys); reflexivity.
Defined.
